(** * Three-qubit bit-flip code: majority vote and circuit recipes

    A shallow embedding of the classical logic of the repository:
    - [majority_vote] (majority_vote_detection.py),
    - [detect_error] and [introduce_error]
      (full_error_correction_pipeline.py),
    - [majority_vote_correction] and
      [create_error_correction_circuit_v2]
      (automatic_error_correction.py),
    - [introduce_bit_flip_error] and [create_circuit_with_error]
      (bit_flip_error_simulation.py),
    - the routes [encode], [correct], [pipeline], [introduce_error] and
      [introduce_random_error], and [allowed_file] (flask_backend.py). *)

From Stdlib Require Import ZArith QArith String Ascii List Bool Lia.
From stdpp Require Import base option gmap strings.

Import ListNotations.
Local Open Scope string_scope.

(** ** Python values and exceptions *)

Module Py.

(** The exceptions the embedded code can raise, with their message. *)
Inductive exception : Type :=
| ValueError (msg : string)
| ZeroDivisionError (msg : string)
| CircuitError (msg : string)
| SimulatorError (msg : string).

(** A call either raises or returns. *)
Definition result (A : Type) : Type := (exception + A)%type.

Definition raise {A : Type} (e : exception) : result A := inl e.
Definition ret {A : Type} (a : A) : result A := inr a.

Definition bind {A B : Type} (m : result A) (k : A -> result B) : result B :=
  match m with
  | inl e => inl e
  | inr a => k a
  end.

(** [str(e)] of an exception. *)
Definition str_of_exception (e : exception) : string :=
  match e with
  | ValueError m | ZeroDivisionError m | CircuitError m | SimulatorError m => m
  end.

(** A one-character Python string is an [ascii]; an ASCII string is a
    [string]. *)

(** [s.count(c)] for a one-character [c]. *)
Fixpoint str_count (s : string) (c : ascii) : nat :=
  match s with
  | EmptyString => 0
  | String a s' => (if Ascii.eqb a c then 1 else 0) + str_count s' c
  end.

(** The lowest index of [c] in [s], if any ([s.find(c)]). *)
Fixpoint str_find (s : string) (c : ascii) : option nat :=
  match s with
  | EmptyString => None
  | String a s' =>
      if Ascii.eqb a c then Some 0
      else match str_find s' c with
           | Some i => Some (S i)
           | None => None
           end
  end.

(** [s.index(c)]: as [find], but raises [ValueError] when [c] is absent. *)
Definition str_index (s : string) (c : ascii) : result nat :=
  match str_find s c with
  | Some i => ret i
  | None => raise (ValueError "substring not found")
  end.

(** [l = list(s); l[i] = c; ''.join(l)] for an index [i] within range. *)
Fixpoint str_set (s : string) (i : nat) (c : ascii) : string :=
  match s, i with
  | EmptyString, _ => EmptyString
  | String _ s', O => String c s'
  | String a s', S i' => String a (str_set s' i' c)
  end.

End Py.

Import Py.

Notation "'let*' x ':=' m 'in' k" := (bind m (fun x => k))
  (at level 10, x name, m at level 100, k at level 200).

(** ** Majority vote on a measured bit string *)

Module MajorityVote.

(** majority_vote_detection.py, [majority_vote]:
    returns [(majority_bit, error_detected, error_position)]. *)
Definition majority_vote (bit_string : string)
  : result (ascii * bool * option nat) :=
  if negb (String.length bit_string =? 3)%nat then
    raise (ValueError "Bit string must be exactly 3 bits")
  else
    let count_0 := str_count bit_string "0" in
    let count_1 := str_count bit_string "1" in
    let majority_bit := if (count_1 <? count_0)%nat then "0"%char else "1"%char in
    let error_detected := negb ((count_0 =? 3)%nat || (count_1 =? 3)%nat) in
    if error_detected then
      let minority_bit :=
        if Ascii.eqb majority_bit "0" then "1"%char else "0"%char in
      let* error_position := str_index bit_string minority_bit in
      ret (majority_bit, error_detected, Some error_position)
    else
      ret (majority_bit, error_detected, None).

(** full_error_correction_pipeline.py,
    [BitFlipErrorCorrection.detect_error]:
    returns [(error_detected, error_position, majority_bit)]; the method
    has no length check, and its printing is left out. *)
Definition detect_error (measurement : string)
  : result (bool * option nat * ascii) :=
  let count_0 := str_count measurement "0" in
  let count_1 := str_count measurement "1" in
  let majority_bit := if (count_1 <? count_0)%nat then "0"%char else "1"%char in
  if ((count_0 =? 3)%nat || (count_1 =? 3)%nat) then
    ret (false, None, majority_bit)
  else
    let minority_bit :=
      if Ascii.eqb majority_bit "0" then "1"%char else "0"%char in
    let* error_position := str_index measurement minority_bit in
    ret (true, Some error_position, majority_bit).

(** automatic_error_correction.py, [majority_vote_correction]:
    returns [(corrected_string, error_position, correction_applied)]. *)
Definition majority_vote_correction (bit_string : string)
  : result (string * option nat * bool) :=
  if negb (String.length bit_string =? 3)%nat then
    raise (ValueError "Expected 3-bit string")
  else
    let count_0 := str_count bit_string "0" in
    let count_1 := str_count bit_string "1" in
    let majority_bit := if (count_1 <? count_0)%nat then "0"%char else "1"%char in
    let minority_bit :=
      if Ascii.eqb majority_bit "0" then "1"%char else "0"%char in
    if ((count_0 =? 3)%nat || (count_1 =? 3)%nat) then
      ret (bit_string, None, false)
    else
      let* error_pos := str_index bit_string minority_bit in
      let corrected_string := str_set bit_string error_pos majority_bit in
      ret (corrected_string, Some error_pos, true).

(** The inputs the claims range over. *)

Definition is_bit (c : ascii) : bool :=
  Ascii.eqb c "0" || Ascii.eqb c "1".

(** A string of exactly three characters, each '0' or '1'. *)
Definition binary3 (s : string) : bool :=
  (String.length s =? 3)%nat && forallb is_bit (list_ascii_of_string s).

(** A string with at least one character other than '0' and '1'. *)
Definition has_non_bit (s : string) : bool :=
  existsb (fun c => negb (is_bit c)) (list_ascii_of_string s).

(** [c] repeated three times. *)
Definition triple (c : ascii) : string :=
  String c (String c (String c EmptyString)).

Definition codewords : list string :=
  ["000"; "001"; "010"; "011"; "100"; "101"; "110"; "111"].

End MajorityVote.

Import MajorityVote.

(** ** The circuit library, as far as the recipes use it

    The repository builds its circuits with the external library
    (qiskit, qiskit_aer); this module gives the behaviour of the calls
    the recipes make. *)

Module Qiskit.

(** The operations the recipes for the logical values '0' and '1'
    append to a circuit. *)
Inductive Instruction : Type :=
| XGate (qubit : nat)
| CXGate (control target : nat)
| Barrier (label : option string)
| Measure (qubits clbits : list nat).

(** [QuantumCircuit(n, m)]: [n] qubits, [m] classical bits and the
    operations in the order they were appended.  The Python object is
    updated in place and handed on; here each call returns the updated
    circuit. *)
Record QuantumCircuit : Type := {
  num_qubits : nat;
  num_clbits : nat;
  data : list Instruction
}.

Definition new_circuit (n m : nat) : QuantumCircuit :=
  {| num_qubits := n; num_clbits := m; data := [] |}.

Definition append (qc : QuantumCircuit) (i : Instruction) : QuantumCircuit :=
  {| num_qubits := num_qubits qc;
     num_clbits := num_clbits qc;
     data := data qc ++ [i] |}.

(** An integer bit specifier is resolved by Python sequence indexing
    into the register: a negative index counts from the end, and an
    index outside [-size, size) is refused with a [CircuitError]. *)
Definition resolve_index (size : nat) (i : Z) : result nat :=
  if ((0 <=? i) && (i <? Z.of_nat size))%Z then
    ret (Z.to_nat i)
  else if ((- Z.of_nat size <=? i) && (i <? 0))%Z then
    ret (Z.to_nat (Z.of_nat size + i))
  else
    raise (CircuitError "Index out of range for the register size.").

Fixpoint resolve_indices (size : nat) (l : list Z) : result (list nat) :=
  match l with
  | [] => ret []
  | i :: l' =>
      let* q := resolve_index size i in
      let* qs := resolve_indices size l' in
      ret (q :: qs)
  end.

(** [qc.x(q)] *)
Definition x (qc : QuantumCircuit) (q : Z) : result QuantumCircuit :=
  let* q' := resolve_index (num_qubits qc) q in
  ret (append qc (XGate q')).

(** [qc.cx(c, t)]; the two qubits must differ. *)
Definition cx (qc : QuantumCircuit) (c t : Z) : result QuantumCircuit :=
  let* c' := resolve_index (num_qubits qc) c in
  let* t' := resolve_index (num_qubits qc) t in
  if (c' =? t')%nat then raise (CircuitError "duplicate qubit arguments")
  else ret (append qc (CXGate c' t')).

(** [qc.barrier()] and [qc.barrier(label=...)] *)
Definition barrier (qc : QuantumCircuit) (label : option string)
  : QuantumCircuit :=
  append qc (Barrier label).

(** [qc.measure(qubits, clbits)] on two lists of equal length. *)
Definition measure (qc : QuantumCircuit) (qs cs : list Z)
  : result QuantumCircuit :=
  let* qs' := resolve_indices (num_qubits qc) qs in
  let* cs' := resolve_indices (num_clbits qc) cs in
  if (length qs' =? length cs')%nat then ret (append qc (Measure qs' cs'))
  else raise (CircuitError "register size error").

(** *** Execution on the ideal simulator

    Every recipe below starts from |000> and applies only X and CX
    before measuring, so the register is in a computational basis
    state throughout: a shot is a run of the reversible classical
    circuit, and every shot of a circuit gives the same outcome. *)

Record shot : Type := {
  qubit_values : list bool;
  clbit_values : list bool
}.

Definition initial_shot (qc : QuantumCircuit) : shot :=
  {| qubit_values := replicate (num_qubits qc) false;
     clbit_values := replicate (num_clbits qc) false |}.

Definition read (l : list bool) (i : nat) : bool := default false (l !! i).

Definition step (st : shot) (i : Instruction) : shot :=
  match i with
  | XGate q =>
      {| qubit_values := alter negb q (qubit_values st);
         clbit_values := clbit_values st |}
  | CXGate c t =>
      {| qubit_values :=
           if read (qubit_values st) c
           then alter negb t (qubit_values st)
           else qubit_values st;
         clbit_values := clbit_values st |}
  | Barrier _ => st
  | Measure qs cs =>
      {| qubit_values := qubit_values st;
         clbit_values :=
           fold_left (fun cl p => <[p.2 := read (qubit_values st) p.1]> cl)
                     (combine qs cs) (clbit_values st) |}
  end.

Definition run_shot (qc : QuantumCircuit) : shot :=
  fold_left step (data qc) (initial_shot qc).

(** A key of the counts dictionary: the classical bits as '0'/'1', the
    highest-numbered bit first (an error on qubit 0 of |000> reads
    '001', as majority_vote_detection.py's test cases note). *)
Definition bitstring (cl : list bool) : string :=
  string_of_list_ascii
    (map (fun b : bool => if b then "1"%char else "0"%char) (rev cl)).

Definition outcome (qc : QuantumCircuit) : string :=
  bitstring (clbit_values (run_shot qc)).

(** [simulator.run(transpile(qc, simulator), shots=shots).result()
     .get_counts()]: a request without a positive number of shots
    yields no counts. *)
Definition run_counts (qc : QuantumCircuit) (shots : Z)
  : result (gmap string Z) :=
  if (shots <=? 0)%Z then
    raise (SimulatorError "no counts for experiment")
  else
    ret {[ outcome qc := shots ]}.

(** [counts.get(key, 0)] *)
Definition counts_get (counts : gmap string Z) (key : string) : Z :=
  default 0%Z (counts !! key).

(** [a / b] on integers, then kept exact: the quotients the routes
    compute from all-or-nothing counts are 0 and 1, which the float
    division returns exactly. *)
Definition truediv (a b : Z) : result Q :=
  if (b =? 0)%Z then raise (ZeroDivisionError "division by zero")
  else ret (inject_Z a / inject_Z b)%Q.

End Qiskit.

Import Qiskit.

(** ** automatic_error_correction.py *)

Module AutomaticCorrection.

(** [create_error_correction_circuit_v2(initial_state, error_qubit)]:
    returns [(qc_error, qc_corrected)]. *)
Definition create_error_correction_circuit_v2
    (initial_state : string) (error_qubit : option Z)
  : result (QuantumCircuit * QuantumCircuit) :=
  (* Circuit 1: encoding + error, no correction *)
  let qc_error := new_circuit 3 3 in
  let* qc_error :=
    (if String.eqb initial_state "1" then x qc_error 0 else ret qc_error) in
  let qc_error := barrier qc_error (Some "Init") in
  let* qc_error := cx qc_error 0 1 in
  let* qc_error := cx qc_error 0 2 in
  let qc_error := barrier qc_error (Some "Encode") in
  let* qc_error :=
    match error_qubit with
    | Some e =>
        let* qc := x qc_error e in
        ret (barrier qc (Some "Error"))
    | None => ret qc_error
    end in
  let* qc_error := measure qc_error [0; 1; 2]%Z [0; 1; 2]%Z in
  (* Circuit 2: encoding + error + correction *)
  let qc_corrected := new_circuit 3 3 in
  let* qc_corrected :=
    (if String.eqb initial_state "1" then x qc_corrected 0
     else ret qc_corrected) in
  let qc_corrected := barrier qc_corrected (Some "Init") in
  let* qc_corrected := cx qc_corrected 0 1 in
  let* qc_corrected := cx qc_corrected 0 2 in
  let qc_corrected := barrier qc_corrected (Some "Encode") in
  let* qc_corrected :=
    match error_qubit with
    | Some e =>
        let* qc := x qc_corrected e in
        let qc := barrier qc (Some "Error") in
        let* qc := x qc e in
        ret (barrier qc (Some "Correct"))
    | None => ret qc_corrected
    end in
  let* qc_corrected := measure qc_corrected [0; 1; 2]%Z [0; 1; 2]%Z in
  ret (qc_error, qc_corrected).

(** [simulate_circuit(qc, shots)] *)
Definition simulate_circuit (qc : QuantumCircuit) (shots : Z)
  : result (gmap string Z) :=
  run_counts qc shots.

(** Build both circuits and simulate the corrected one, as
    [demonstrate_automatic_correction] and [test_random_errors] do. *)
Definition corrected_counts
    (initial_state : string) (error_qubit : option Z) (shots : Z)
  : result (gmap string Z) :=
  let* circuits := create_error_correction_circuit_v2 initial_state error_qubit in
  simulate_circuit circuits.2 shots.

Definition error_counts
    (initial_state : string) (error_qubit : option Z) (shots : Z)
  : result (gmap string Z) :=
  let* circuits := create_error_correction_circuit_v2 initial_state error_qubit in
  simulate_circuit circuits.1 shots.

End AutomaticCorrection.

(** ** bit_flip_error_simulation.py *)

Module ErrorSimulation.

(** [introduce_bit_flip_error(qc, qubit_index)] *)
Definition introduce_bit_flip_error (qc : QuantumCircuit) (qubit_index : Z)
  : result QuantumCircuit :=
  if negb (existsb (Z.eqb qubit_index) [0; 1; 2]%Z) then
    raise (ValueError "Qubit index must be 0, 1, or 2")
  else
    let qc := barrier qc None in
    let* qc := x qc qubit_index in
    let qc := barrier qc None in
    ret qc.

End ErrorSimulation.

(** ** full_error_correction_pipeline.py *)

Module Pipeline.

(** The two draws [introduce_error] may make: [random.random()] and
    [random.randint(0, 2)]. *)
Record draws : Type := {
  random_random : Q;
  random_randint_0_2 : Z
}.

(** [BitFlipErrorCorrection.introduce_error(qc, error_qubit,
    error_probability)]: returns [(qc, error_qubit)]; printing and the
    qubit number in the barrier label are left out. *)
Definition introduce_error
    (rnd : draws) (qc : QuantumCircuit)
    (error_qubit : option Z) (error_probability : Q)
  : result (QuantumCircuit * option Z) :=
  if negb (Qle_bool (random_random rnd) error_probability) then
    ret (qc, None)
  else
    let error_qubit :=
      match error_qubit with
      | None => random_randint_0_2 rnd
      | Some e => e
      end in
    let* qc := x qc error_qubit in
    let qc := barrier qc (Some "Error@q") in
    ret (qc, Some error_qubit).

End Pipeline.

(** ** flask_backend.py *)

Module Flask.

(** The JSON body of a request: each key may be absent. *)
Record request : Type := {
  state : option string;
  error_qubit : option Z;
  shots : option Z;
  random_error : option bool
}.

(** What a route returns: a JSON body with status 200, or
    [{'success': False, 'error': msg}] with status 400. *)
Inductive response (A : Type) : Type :=
| Ok200 (body : A)
| Bad400 (error : string).
Arguments Ok200 {A} body.
Arguments Bad400 {A} error.

(** [try: ... except Exception as e: return jsonify({'success': False,
    'error': str(e)}), 400] *)
Definition catch {A : Type} (m : result (response A)) : response A :=
  match m with
  | inl e => Bad400 (str_of_exception e)
  | inr r => r
  end.

(** The POST /encode body; ['circuit'] is the circuit whose drawing
    the route returns. *)
Record encode_body : Type := {
  enc_initial_state : string;
  enc_encoded_state : string;
  enc_circuit : QuantumCircuit;
  enc_measurements : gmap string Z;
  enc_shots : Z
}.

Definition encode (data : request) : response encode_body :=
  catch (
    let initial_state := default "0" (state data) in
    let qc := new_circuit 3 3 in
    let* qc := (if String.eqb initial_state "1" then x qc 0 else ret qc) in
    let* qc := cx qc 0 1 in
    let* qc := cx qc 0 2 in
    let* qc := measure qc [0; 1; 2]%Z [0; 1; 2]%Z in
    let* counts := run_counts qc 1000 in
    ret (Ok200
      {| enc_initial_state := initial_state;
         enc_encoded_state :=
           if String.eqb initial_state "0" then "000" else "111";
         enc_circuit := qc;
         enc_measurements := counts;
         enc_shots := 1000 |})).

(** The POST /correct body. *)
Record correct_body : Type := {
  cor_initial_state : string;
  cor_error_qubit : Z;
  cor_expected_state : string;
  cor_success_rate : Q;
  cor_circuit : QuantumCircuit;
  cor_measurements : gmap string Z;
  cor_shots : Z
}.

Definition correct (data : request) : response correct_body :=
  catch (
    let initial_state := default "0" (state data) in
    let error_qubit := default 1%Z (error_qubit data) in
    if negb (existsb (Z.eqb error_qubit) [0; 1; 2]%Z) then
      ret (Bad400 "Invalid qubit")
    else
      let qc := new_circuit 3 3 in
      let* qc := (if String.eqb initial_state "1" then x qc 0 else ret qc) in
      let* qc := cx qc 0 1 in
      let* qc := cx qc 0 2 in
      let qc := barrier qc (Some "Encode") in
      let* qc := x qc error_qubit in
      let qc := barrier qc (Some "Error") in
      let* qc := x qc error_qubit in
      let qc := barrier qc (Some "Correct") in
      let* qc := measure qc [0; 1; 2]%Z [0; 1; 2]%Z in
      let* counts := run_counts qc 1000 in
      let expected := if String.eqb initial_state "0" then "000" else "111" in
      let success_count := counts_get counts expected in
      let* fraction := truediv success_count 1000 in
      let success_rate := (fraction * 100)%Q in
      ret (Ok200
        {| cor_initial_state := initial_state;
           cor_error_qubit := error_qubit;
           cor_expected_state := expected;
           cor_success_rate := success_rate;
           cor_circuit := qc;
           cor_measurements := counts;
           cor_shots := 1000 |})).

(** The POST /pipeline body, with its nested ['pipeline'] object. *)
Record pipeline_info : Type := {
  initial_state : string;
  chosen_error_qubit : Z;
  randomly_selected : bool;
  expected_state : string;
  success_rate : Q;
  corrected : bool
}.

Record pipeline_body : Type := {
  info : pipeline_info;
  circuit : QuantumCircuit;
  measurements : gmap string Z;
  used_shots : Z
}.

(** [randint_0_2] is the value [random.randint(0, 2)] returns when the
    route draws the error qubit. *)
Definition pipeline (randint_0_2 : Z) (data : request)
  : response pipeline_body :=
  catch (
    let initial_state := default "0" (state data) in
    let error_qubit := default 1%Z (error_qubit data) in
    let shots := default 1000%Z (shots data) in
    let use_random_error := default false (random_error data) in
    let checked : option Z :=
      if use_random_error then Some randint_0_2
      else if negb (existsb (Z.eqb error_qubit) [0; 1; 2]%Z) then None
      else Some error_qubit in
    match checked with
    | None => ret (Bad400 "Invalid qubit")
    | Some error_qubit =>
        let qc := new_circuit 3 3 in
        (* Initialize *)
        let* qc := (if String.eqb initial_state "1" then x qc 0 else ret qc) in
        (* Encode *)
        let* qc := cx qc 0 1 in
        let* qc := cx qc 0 2 in
        (* Error *)
        let* qc := x qc error_qubit in
        (* Correct (flip the same qubit back) *)
        let* qc := x qc error_qubit in
        (* Decode *)
        let* qc := cx qc 0 2 in
        let* qc := cx qc 0 1 in
        (* Measure *)
        let* qc := measure qc [0; 1; 2]%Z [0; 1; 2]%Z in
        let* counts := run_counts qc shots in
        let expected := if String.eqb initial_state "0" then "000" else "111" in
        let success_count := counts_get counts expected in
        let* fraction := truediv success_count shots in
        let success_rate := (fraction * 100)%Q in
        ret (Ok200
          {| info :=
               {| initial_state := initial_state;
                  chosen_error_qubit := error_qubit;
                  randomly_selected := use_random_error;
                  expected_state := expected;
                  success_rate := success_rate;
                  corrected := Qle_bool 99 success_rate |};
             circuit := qc;
             measurements := counts;
             used_shots := shots |})
    end).

End Flask.

(** ** majority_vote_detection.py: the circuits *)

Module Detection.

(** [create_encoding_circuit_with_registers()]: a register of three
    qubits and one of three classical bits; the register bits [qr[0]],
    [qr[1]], [qr[2]] are the qubits 0, 1, 2 of the circuit. *)
Definition create_encoding_circuit_with_registers : result QuantumCircuit :=
  let qc := new_circuit 3 3 in
  let* qc := cx qc 0 1 in
  let* qc := cx qc 0 2 in
  ret qc.

(** [add_error_and_measure(qc, error_qubit)] *)
Definition add_error_and_measure (qc : QuantumCircuit) (error_qubit : option Z)
  : result QuantumCircuit :=
  let* qc :=
    match error_qubit with
    | Some e =>
        let qc := barrier qc (Some "Error") in
        x qc e
    | None => ret qc
    end in
  let qc := barrier qc (Some "Measure") in
  measure qc [0; 1; 2]%Z [0; 1; 2]%Z.

(** [simulate_and_get_measurements(qc, shots)] *)
Definition simulate_and_get_measurements (qc : QuantumCircuit) (shots : Z)
  : result (gmap string Z) :=
  run_counts qc shots.

End Detection.

(** ** bit_flip_error_simulation.py: the circuits *)

Module Simulation.

(** [create_circuit_with_error(initial_state, error_qubit)] *)
Definition create_circuit_with_error
    (initial_state : string) (error_qubit : option Z)
  : result QuantumCircuit :=
  let qc := new_circuit 3 3 in
  let* qc := (if String.eqb initial_state "1" then x qc 0 else ret qc) in
  let qc := barrier qc (Some "Init") in
  let* qc := cx qc 0 1 in
  let* qc := cx qc 0 2 in
  let* qc :=
    match error_qubit with
    | Some e =>
        let qc := barrier qc (Some "Error") in
        x qc e
    | None => ret qc
    end in
  let qc := barrier qc (Some "Measure") in
  measure qc [0; 1; 2]%Z [0; 1; 2]%Z.

(** [simulate_circuit(qc, shots)] *)
Definition simulate_circuit (qc : QuantumCircuit) (shots : Z)
  : result (gmap string Z) :=
  run_counts qc shots.

End Simulation.

(** ** full_error_correction_pipeline.py: the other steps of the class *)

Module Steps.

(** [BitFlipErrorCorrection.encode(qc)]; printing is left out. *)
Definition encode (qc : QuantumCircuit) : result QuantumCircuit :=
  let* qc := cx qc 0 1 in
  let* qc := cx qc 0 2 in
  ret (barrier qc (Some "Encoded")).

(** [BitFlipErrorCorrection.measure_syndrome(qc, cr)]; the register [cr]
    is not used by the method. *)
Definition measure_syndrome (qc : QuantumCircuit) : result QuantumCircuit :=
  let* qc := measure qc [0; 1; 2]%Z [0; 1; 2]%Z in
  ret (barrier qc (Some "Syndrome")).

(** [BitFlipErrorCorrection.correct_error(qc, error_position)]; printing
    and the qubit number in the barrier label are left out. *)
Definition correct_error (qc : QuantumCircuit) (error_position : option Z)
  : result QuantumCircuit :=
  match error_position with
  | Some e =>
      let* qc := x qc e in
      ret (barrier qc (Some "Correct@q"))
  | None => ret qc
  end.

End Steps.

(** ** flask_backend.py: the error routes and the upload filter *)

Module Routes.

(** The POST /error body; ['circuit'] is the circuit whose drawing the
    route returns. *)
Record error_body : Type := {
  err_initial_state : string;
  err_error_qubit : Z;
  err_circuit : QuantumCircuit;
  err_measurements : gmap string Z;
  err_shots : Z
}.

(** The POST /error/random body. *)
Record random_error_body : Type := {
  rnd_initial_state : string;
  rnd_error_qubit : Z;
  rnd_randomly_selected : bool;
  rnd_circuit : QuantumCircuit;
  rnd_measurements : gmap string Z;
  rnd_shots : Z
}.

(** POST /error, [introduce_error()] *)
Definition introduce_error (data : Flask.request) : Flask.response error_body :=
  Flask.catch (
    let initial_state := default "0" (Flask.state data) in
    let error_qubit := default 1%Z (Flask.error_qubit data) in
    if negb (existsb (Z.eqb error_qubit) [0; 1; 2]%Z) then
      ret (Flask.Bad400 "Invalid qubit")
    else
      let qc := new_circuit 3 3 in
      let* qc := (if String.eqb initial_state "1" then x qc 0 else ret qc) in
      let* qc := cx qc 0 1 in
      let* qc := cx qc 0 2 in
      let qc := barrier qc None in
      let* qc := x qc error_qubit in
      let qc := barrier qc None in
      let* qc := measure qc [0; 1; 2]%Z [0; 1; 2]%Z in
      let* counts := run_counts qc 1000 in
      ret (Flask.Ok200
        {| err_initial_state := initial_state;
           err_error_qubit := error_qubit;
           err_circuit := qc;
           err_measurements := counts;
           err_shots := 1000 |})).

(** POST /error/random, [introduce_random_error()]; [randint_0_2] is
    the value [random.randint(0, 2)] returns. *)
Definition introduce_random_error (randint_0_2 : Z) (data : Flask.request)
  : Flask.response random_error_body :=
  Flask.catch (
    let initial_state := default "0" (Flask.state data) in
    let error_qubit := randint_0_2 in
    let qc := new_circuit 3 3 in
    let* qc := (if String.eqb initial_state "1" then x qc 0 else ret qc) in
    let* qc := cx qc 0 1 in
    let* qc := cx qc 0 2 in
    let qc := barrier qc None in
    let* qc := x qc error_qubit in
    let qc := barrier qc None in
    let* qc := measure qc [0; 1; 2]%Z [0; 1; 2]%Z in
    let* counts := run_counts qc 1000 in
    ret (Flask.Ok200
      {| rnd_initial_state := initial_state;
         rnd_error_qubit := error_qubit;
         rnd_randomly_selected := true;
         rnd_circuit := qc;
         rnd_measurements := counts;
         rnd_shots := 1000 |})).

(** *** The upload filter

    A file name is a string of code points below 256. *)

Inductive index_error : Type :=
| IndexError (msg : string).

(** The set [ALLOWED_EXTENSIONS]; only membership is asked of it. *)
Definition ALLOWED_EXTENSIONS : list string :=
  ["txt"; "json"; "qasm"; "py"; "png"; "jpg"; "jpeg"; "pdf"].

(** [c.lower()] for one code point below 256: the letters A-Z and the
    accented capitals U+00C0-U+00DE (but not the sign U+00D7) move up
    by 32. *)
Definition chr_lower (c : ascii) : ascii :=
  let n := nat_of_ascii c in
  if ((65 <=? n)%nat && (n <=? 90)%nat)
     || ((192 <=? n)%nat && (n <=? 222)%nat && negb (n =? 215)%nat)
  then ascii_of_nat (n + 32)
  else c.

(** [s.lower()] *)
Fixpoint str_lower (s : string) : string :=
  match s with
  | EmptyString => EmptyString
  | String c s' => String (chr_lower c) (str_lower s')
  end.

(** [c in s] for a one-character [c]. *)
Definition str_contains (s : string) (c : ascii) : bool :=
  match str_find s c with
  | Some _ => true
  | None => false
  end.

(** The two parts around the last [sep] of [s], if [s] has one. *)
Fixpoint split_last (s : string) (sep : ascii) : option (string * string) :=
  match s with
  | EmptyString => None
  | String a s' =>
      match split_last s' sep with
      | Some (h, t) => Some (String a h, t)
      | None => if Ascii.eqb a sep then Some (EmptyString, s') else None
      end
  end.

(** [s.rsplit(sep, 1)] *)
Definition str_rsplit1 (s : string) (sep : ascii) : list string :=
  match split_last s sep with
  | Some (h, t) => [h; t]
  | None => [s]
  end.

(** [l[i]] *)
Definition list_get (l : list string) (i : nat) : index_error + string :=
  match nth_error l i with
  | Some v => inr v
  | None => inl (IndexError "list index out of range")
  end.

(** [allowed_file(filename)]: the right operand of [and] is evaluated
    only when the name has a dot. *)
Definition allowed_file (filename : string) : index_error + bool :=
  if str_contains filename "." then
    match list_get (str_rsplit1 filename ".") 1 with
    | inl e => inl e
    | inr extension =>
        inr (existsb (String.eqb (str_lower extension)) ALLOWED_EXTENSIONS)
    end
  else inr false.

End Routes.

(** ** Codewords with flipped bits *)

Module Bits.

(** The character of a bit. *)
Definition bit_char (b : bool) : ascii :=
  if b then "1"%char else "0"%char.

(** The codeword of the logical bit [b]: '000' or '111'. *)
Definition codeword (b : bool) : string := triple (bit_char b).

(** [s] with the character at index [i] replaced by the other bit than
    [b]. *)
Definition flip_at (b : bool) (i : nat) (s : string) : string :=
  str_set s i (bit_char (negb b)).

End Bits.

(** * Properties *)

(** ** Majority vote *)

Section MajorityVoteFacts.

Lemma is_bit_inv (c : ascii) :
is_bit c = true -> c = "0"%char \/ c = "1"%char.
Proof.
unfold is_bit. intros H. apply orb_true_iff in H.
destruct H as [H | H]; apply Ascii.eqb_eq in H; auto.
Qed.

(** The eight strings the claims about binary input range over. *)
Lemma binary3_inv (s : string) :
binary3 s = true -> In s codewords.
Proof.
unfold binary3. intros H. apply andb_true_iff in H. destruct H as [Hlen Hbits].
destruct s as [| a [| b [| c [| d s]]]]; try discriminate Hlen.
cbn in Hbits.
repeat match goal with
       | H : _ && _ = true |- _ =>
           apply andb_true_iff in H; destruct H
       | H : is_bit _ = true |- _ =>
           apply is_bit_inv in H; destruct H; subst
       end;
  simpl; tauto.
Qed.

Lemma length_not_3 (s : string) :
String.length s <> 3 -> negb (String.length s =? 3)%nat = true.
Proof.
intros H. apply negb_true_iff. now apply Nat.eqb_neq.
Qed.

End MajorityVoteFacts.

(** Splits a goal about a binary 3-character string into its eight
    instances. *)
Ltac by_codeword H :=
  apply binary3_inv in H; simpl in H;
  repeat (destruct H as [H | H]; [subst | ]); [ .. | contradiction ].

(** C1: on every 3-character string of '0'/'1' characters,
    [majority_vote] (and [detect_error], which decides the same way)
    returns the majority bit '0' when the string has at least two '0'
    characters, and '1' otherwise. *)
Theorem majority_vote_majority_bit (s : string) :
  binary3 s = true ->
  let expected :=
    if (2 <=? str_count s "0")%nat then "0"%char else "1"%char in
  (exists detected position,
      majority_vote s = inr (expected, detected, position)) /\
  (exists detected position,
      detect_error s = inr (detected, position, expected)).
Proof.
  intros H. by_codeword H; cbv; split; eauto.
Qed.

Lemma majority_vote_majority_bit_witness :
  binary3 "100" = true /\
  (exists detected position,
      majority_vote "100" = inr ("0"%char, detected, position)) /\
  (exists detected position,
      detect_error "100" = inr (detected, position, "0"%char)).
Proof.
  split; [reflexivity | apply (majority_vote_majority_bit "100"); reflexivity].
Defined.

(** C2: a 3-character binary string with no '1' or with three '1'
    characters is reported without error: [error_detected] is false and
    [error_position] is None; '000' gives majority '0'. *)
Theorem majority_vote_no_error (s : string) :
  binary3 s = true ->
  str_count s "1" = 0 \/ str_count s "1" = 3 ->
  (exists majority, majority_vote s = inr (majority, false, None) /\
                    detect_error s = inr (false, None, majority)) /\
  majority_vote "000" = inr ("0"%char, false, None).
Proof.
  intros H Hcount.
  by_codeword H; cbv in Hcount; destruct Hcount as [Hc | Hc];
    try discriminate Hc; (split; [eexists; split |]; reflexivity).
Qed.

Lemma majority_vote_no_error_witness :
  (exists majority, majority_vote "111" = inr (majority, false, None) /\
                    detect_error "111" = inr (false, None, majority)) /\
  majority_vote "000" = inr ("0"%char, false, None).
Proof.
  apply (majority_vote_no_error "111"); [reflexivity | right; reflexivity].
Defined.

(** C3: a 3-character binary string with one or two '1' characters is
    reported with [error_detected] true and [error_position] the one
    index whose character differs from the majority bit; '010' gives
    majority '0' and position 1, '101' gives majority '1' and
    position 1. *)
Theorem majority_vote_single_error (s : string) :
  binary3 s = true ->
  str_count s "1" = 1 \/ str_count s "1" = 2 ->
  (exists majority position,
      majority_vote s = inr (majority, true, Some position) /\
      (exists c, String.get position s = Some c /\ c <> majority) /\
      (forall j c, String.get j s = Some c -> c <> majority -> j = position)) /\
  majority_vote "010" = inr ("0"%char, true, Some 1) /\
  majority_vote "101" = inr ("1"%char, true, Some 1).
Proof.
  intros H Hcount.
  by_codeword H; cbv in Hcount; destruct Hcount as [Hc | Hc];
    try discriminate Hc;
    (split; [ | split; reflexivity ]);
    do 2 eexists; (split; [reflexivity | split]);
    try (eexists; split; [reflexivity | discriminate]);
    intros [| [| [| j]]] c Hget Hneq; simpl in Hget;
    try reflexivity; try discriminate Hget;
    injection Hget as <-; contradiction Hneq; reflexivity.
Qed.

Lemma majority_vote_single_error_witness :
  (exists majority position,
      majority_vote "110" = inr (majority, true, Some position) /\
      (exists c, String.get position "110" = Some c /\ c <> majority) /\
      (forall j c, String.get j "110" = Some c -> c <> majority -> j = position)) /\
  majority_vote "010" = inr ("0"%char, true, Some 1) /\
  majority_vote "101" = inr ("1"%char, true, Some 1).
Proof.
  apply (majority_vote_single_error "110"); [reflexivity | right; reflexivity].
Defined.

(** C6: on a string whose length is not 3 (two characters, four
    characters, ...) [majority_vote] raises its ValueError and returns
    nothing. *)
Theorem majority_vote_wrong_length (s : string) :
  String.length s <> 3 ->
  majority_vote s = inl (ValueError "Bit string must be exactly 3 bits").
Proof.
  intros H. unfold majority_vote. now rewrite (length_not_3 s H).
Qed.

Lemma majority_vote_wrong_length_witness :
  majority_vote "01" = inl (ValueError "Bit string must be exactly 3 bits") /\
  majority_vote "0110" = inl (ValueError "Bit string must be exactly 3 bits").
Proof.
  split.
  - apply (majority_vote_wrong_length "01"). simpl. lia.
  - apply (majority_vote_wrong_length "0110"). simpl. lia.
Defined.

Section NonBinaryInput.

(** A character is '0', or '1', or neither. *)
Lemma bit_cases (c : ascii) :
c = "0"%char \/ c = "1"%char \/
(Ascii.eqb c "0" = false /\ Ascii.eqb c "1" = false).
Proof.
destruct (Ascii.eqb c "0") eqn:E0.
- left. now apply Ascii.eqb_eq.
- destruct (Ascii.eqb c "1") eqn:E1.
  + right; left. now apply Ascii.eqb_eq.
  + right; right. split; reflexivity.
Qed.

End NonBinaryInput.

(** C7, as the code has it: [majority_vote] checks the length only.  On
    a 3-character string with a character other than '0' and '1' it
    raises ValueError from the failed lookup of the minority bit, except
    when the string holds exactly one '0' and exactly one '1': then it
    returns majority '1', [error_detected] true and the index of the '0'
    as [error_position]. *)
Theorem majority_vote_non_bit (s : string) :
  String.length s = 3 ->
  has_non_bit s = true ->
  if ((str_count s "0" =? 1)%nat && (str_count s "1" =? 1)%nat)%bool
  then majority_vote s = inr ("1"%char, true, str_find s "0")
  else majority_vote s = inl (ValueError "substring not found").
Proof.
  intros Hlen Hnb.
  destruct s as [| a [| b [| c [| d s]]]]; try discriminate Hlen.
  clear Hlen. revert Hnb.
  unfold has_non_bit, is_bit, majority_vote, str_index.
  destruct (bit_cases a) as [-> | [-> | [Ha0 Ha1]]];
    destruct (bit_cases b) as [-> | [-> | [Hb0 Hb1]]];
    destruct (bit_cases c) as [-> | [-> | [Hc0 Hc1]]];
    cbn;
    repeat (progress (rewrite ?Ha0, ?Ha1, ?Hb0, ?Hb1, ?Hc0, ?Hc1); cbn);
    intros Hnb; first [ discriminate Hnb | reflexivity ].
Qed.

Lemma majority_vote_non_bit_witness :
  majority_vote "00a" = inl (ValueError "substring not found") /\
  majority_vote "a10" = inr ("1"%char, true, Some 2).
Proof.
  split.
  - apply (majority_vote_non_bit "00a"); reflexivity.
  - apply (majority_vote_non_bit "a10"); reflexivity.
Defined.

(** C7, as stated, fails: '0a1' has three characters, one of them
    neither '0' nor '1', and [majority_vote] returns a result for it. *)
Lemma majority_vote_non_bit_counterexample :
  String.length "0a1" = 3 /\
  has_non_bit "0a1" = true /\
  majority_vote "0a1" = inr ("1"%char, true, Some 0) /\
  ~ (exists e, majority_vote "0a1" = inl e).
Proof.
  repeat split; try reflexivity.
  intros [e He]. discriminate He.
Qed.

(** C10: on every 3-character string of '0'/'1' characters,
    [majority_vote_correction] returns the majority bit repeated three
    times, with [correction_applied] true exactly when the three
    characters are not all equal, and [error_position] the one index
    holding the minority bit in that case and None otherwise. *)
Theorem majority_vote_correction_spec (s : string) :
  binary3 s = true ->
  let majority :=
    if (2 <=? str_count s "0")%nat then "0"%char else "1"%char in
  exists position applied,
    majority_vote_correction s = inr (triple majority, position, applied) /\
    (applied = true <-> ~ (exists c, s = triple c)) /\
    (applied = true ->
     exists i, position = Some i /\
       (exists c, String.get i s = Some c /\ c <> majority) /\
       (forall j c, String.get j s = Some c -> c <> majority -> j = i)) /\
    (applied = false -> position = None).
Proof.
  intros H.
  by_codeword H; cbv zeta; do 2 eexists;
    (split; [reflexivity | split; [ | split ]]).
  all: try (intros Happ; discriminate Happ).
  all: try (intros _; reflexivity).
  all: try (split; [ intros Happ; discriminate Happ
                   | intros Hne; contradiction Hne; eexists; reflexivity ]).
  all: try (split; [ intros _ [c Hc]; injection Hc; intros; subst; discriminate
                   | reflexivity ]).
  all: intros _; eexists; split; [reflexivity | split];
    [ eexists; split; [reflexivity | discriminate]
    | intros [| [| [| j]]] c Hget Hneq; simpl in Hget;
      try reflexivity; try discriminate Hget;
      injection Hget as <-; contradiction Hneq; reflexivity ].
Qed.

Lemma majority_vote_correction_spec_witness :
  exists position applied,
    majority_vote_correction "011" = inr ("111", position, applied) /\
    (applied = true <-> ~ (exists c, "011" = triple c)) /\
    (applied = true ->
     exists i, position = Some i /\
       (exists c, String.get i "011" = Some c /\ c <> "1"%char) /\
       (forall j c, String.get j "011" = Some c -> c <> "1"%char -> j = i)) /\
    (applied = false -> position = None).
Proof.
  apply (majority_vote_correction_spec "011"). reflexivity.
Defined.

(** ** Running the recipes *)

Section SimulatorFacts.

Lemma run_counts_pos (qc : QuantumCircuit) (shots : Z) :
(0 < shots)%Z -> run_counts qc shots = inr {[ outcome qc := shots ]}.
Proof.
intros H. unfold run_counts.
destruct (Z.leb_spec shots 0); [lia | reflexivity].
Qed.

Lemma counts_get_singleton (k k' : string) (n : Z) :
counts_get {[ k := n ]} k' = if String.eqb k k' then n else 0%Z.
Proof.
unfold counts_get. destruct (String.eqb_spec k k') as [-> | Hne].
- now rewrite lookup_singleton_eq.
- now rewrite lookup_singleton_ne.
Qed.

Lemma truediv_nonzero (a b : Z) :
b <> 0%Z -> truediv a b = inr (inject_Z a / inject_Z b)%Q.
Proof.
intros H. unfold truediv.
destruct (Z.eqb_spec b 0); [contradiction | reflexivity].
Qed.

(** No shot as expected: 0 percent. *)
Lemma rate_none (shots : Z) :
(inject_Z 0 / inject_Z shots * 100 == 0)%Q.
Proof.
unfold Qdiv. now rewrite !Qmult_0_l.
Qed.

(** Every shot as expected: 100 percent. *)
Lemma rate_all (shots : Z) :
shots <> 0%Z -> (inject_Z shots / inject_Z shots * 100 == 100)%Q.
Proof.
intros H. unfold Qdiv. rewrite Qmult_inv_r.
- now rewrite Qmult_1_l.
- unfold Qeq. simpl. lia.
Qed.

Lemma below_threshold (rate : Q) :
(rate == 0)%Q -> Qle_bool 99 rate = false.
Proof.
intros H. destruct (Qle_bool 99 rate) eqn:E; [ | reflexivity].
apply Qle_bool_iff in E. rewrite H in E.
unfold Qle in E. simpl in E. lia.
Qed.

End SimulatorFacts.

(** Evaluates the circuit a recipe builds, then the run on a positive
    number of shots, leaving the arithmetic on the counts. *)
Ltac eval_call t :=
  let t' := eval cbv -[run_counts truediv counts_get Qle_bool Qmult Qdiv
                       inject_Z] in t in
  change t with t'.

Ltac eval_calls :=
  repeat match goal with
         | |- context [Flask.pipeline ?r ?d] => eval_call (Flask.pipeline r d)
         | |- context [Flask.correct ?d] => eval_call (Flask.correct d)
         | |- context [Flask.encode ?d] => eval_call (Flask.encode d)
         | |- context [AutomaticCorrection.corrected_counts ?i ?e ?n] =>
             eval_call (AutomaticCorrection.corrected_counts i e n)
         | |- context [AutomaticCorrection.error_counts ?i ?e ?n] =>
             eval_call (AutomaticCorrection.error_counts i e n)
         end.

Ltac eval_outcome :=
  repeat match goal with
         | |- context [outcome ?qc] =>
             let s := eval vm_compute in (outcome qc) in
             change (outcome qc) with s
         end.

Ltac eval_key_test :=
  repeat match goal with
         | |- context [String.eqb ?a ?b] =>
             let v := eval vm_compute in (String.eqb a b) in
             change (String.eqb a b) with v
         end.

Ltac run_recipe :=
  eval_calls;
  rewrite ?run_counts_pos by lia;
  eval_outcome;
  cbv beta iota;
  rewrite ?counts_get_singleton;
  eval_key_test;
  cbv beta iota;
  rewrite ?truediv_nonzero by lia;
  cbv beta iota.

(** C4: with no error injected, the encode-and-measure circuits measure
    '000' on every shot for the logical value '0' and '111' on every
    shot for '1': both circuits of [create_error_correction_circuit_v2]
    on any positive number of shots, and the circuit of POST /encode on
    its 1000 shots. *)
Theorem encode_round_trip (shots : Z) :
  (0 < shots)%Z ->
  AutomaticCorrection.error_counts "0" None shots = inr {[ "000" := shots ]} /\
  AutomaticCorrection.corrected_counts "0" None shots = inr {[ "000" := shots ]} /\
  AutomaticCorrection.error_counts "1" None shots = inr {[ "111" := shots ]} /\
  AutomaticCorrection.corrected_counts "1" None shots = inr {[ "111" := shots ]} /\
  (exists body,
      Flask.encode {| Flask.state := Some "0"; Flask.error_qubit := None;
                      Flask.shots := None; Flask.random_error := None |}
      = Flask.Ok200 body /\
      Flask.enc_encoded_state body = "000" /\
      Flask.enc_measurements body = {[ "000" := 1000%Z ]}) /\
  (exists body,
      Flask.encode {| Flask.state := Some "1"; Flask.error_qubit := None;
                      Flask.shots := None; Flask.random_error := None |}
      = Flask.Ok200 body /\
      Flask.enc_encoded_state body = "111" /\
      Flask.enc_measurements body = {[ "111" := 1000%Z ]}).
Proof.
  intros H.
  repeat split; run_recipe; try reflexivity;
    eexists; repeat split.
Qed.

Lemma encode_round_trip_witness :
  AutomaticCorrection.error_counts "0" None 7 = inr {[ "000" := 7%Z ]} /\
  AutomaticCorrection.corrected_counts "1" None 7 = inr {[ "111" := 7%Z ]}.
Proof.
  pose proof (encode_round_trip 7 ltac:(lia)) as H.
  split; apply H.
Defined.

(** C5: for the logical values '0' and '1' and every error index 0, 1
    or 2, the circuit that flips the qubit and flips it back gives the
    same counts as the circuit without an error, namely every shot on
    the encoded value; for '1' with error and correction on qubit 2
    every shot measures '111', and POST /correct reports a success rate
    of 100. *)
Theorem correction_undoes_error (initial_state : string) (e shots : Z) :
  initial_state = "0" \/ initial_state = "1" ->
  (0 <= e <= 2)%Z ->
  (0 < shots)%Z ->
  let expected := if String.eqb initial_state "0" then "000" else "111" in
  AutomaticCorrection.corrected_counts initial_state (Some e) shots
  = AutomaticCorrection.corrected_counts initial_state None shots /\
  AutomaticCorrection.corrected_counts initial_state (Some e) shots
  = inr {[ expected := shots ]} /\
  AutomaticCorrection.corrected_counts "1" (Some 2%Z) shots
  = inr {[ "111" := shots ]} /\
  (exists body,
      Flask.correct {| Flask.state := Some initial_state;
                       Flask.error_qubit := Some e;
                       Flask.shots := None; Flask.random_error := None |}
      = Flask.Ok200 body /\
      Flask.cor_measurements body = {[ expected := 1000%Z ]} /\
      (Flask.cor_success_rate body == 100)%Q).
Proof.
  intros Hinit He Hshots.
  assert (e = 0 \/ e = 1 \/ e = 2)%Z as Hcases by lia.
  destruct Hinit as [-> | ->];
    destruct Hcases as [-> | [-> | ->]];
    cbv zeta; eval_key_test; cbv beta iota;
    run_recipe;
    (repeat split; try reflexivity);
    eexists; (split; [reflexivity | split; [reflexivity | ]]);
    cbn [Flask.cor_success_rate]; apply rate_all; lia.
Qed.

Lemma correction_undoes_error_witness :
  AutomaticCorrection.corrected_counts "1" (Some 2%Z) 7
  = AutomaticCorrection.corrected_counts "1" None 7 /\
  AutomaticCorrection.corrected_counts "1" (Some 2%Z) 7
  = inr {[ "111" := 7%Z ]}.
Proof.
  pose proof (correction_undoes_error "1" 2 7
                (or_intror eq_refl) ltac:(lia) ltac:(lia)) as H.
  split; apply H.
Defined.

(** C9: POST /pipeline appends the two decode CNOTs, control 0 onto
    target 2 and then control 0 onto target 1, after the correction and
    before the measurement.  So for a request with a positive shot
    count and an error index among 0, 1, 2 (given or drawn): with
    initial state '1' every shot measures '001', the success rate
    against the expected '111' is 0 and 'corrected' is false; with
    initial state '0' (given, or by default) every shot measures '000'
    and the success rate is 100. *)
Theorem pipeline_decodes_before_measuring (randint_0_2 : Z) (data : Flask.request) :
  let shots := default 1000%Z (Flask.shots data) in
  let chosen :=
    if default false (Flask.random_error data) then randint_0_2
    else default 1%Z (Flask.error_qubit data) in
  let q := Z.to_nat chosen in
  (0 < shots)%Z ->
  (0 <= chosen <= 2)%Z ->
  (Flask.state data = Some "1" ->
   exists body,
     Flask.pipeline randint_0_2 data = Flask.Ok200 body /\
     Qiskit.data (Flask.circuit body)
     = [XGate 0; CXGate 0 1; CXGate 0 2; XGate q; XGate q;
        CXGate 0 2; CXGate 0 1; Measure [0; 1; 2] [0; 1; 2]] /\
     Flask.measurements body = {[ "001" := shots ]} /\
     Flask.expected_state (Flask.info body) = "111" /\
     (Flask.success_rate (Flask.info body) == 0)%Q /\
     Flask.corrected (Flask.info body) = false) /\
  (Flask.state data = Some "0" \/ Flask.state data = None ->
   exists body,
     Flask.pipeline randint_0_2 data = Flask.Ok200 body /\
     Qiskit.data (Flask.circuit body)
     = [CXGate 0 1; CXGate 0 2; XGate q; XGate q;
        CXGate 0 2; CXGate 0 1; Measure [0; 1; 2] [0; 1; 2]] /\
     Flask.measurements body = {[ "000" := shots ]} /\
     Flask.expected_state (Flask.info body) = "000" /\
     (Flask.success_rate (Flask.info body) == 100)%Q).
Proof.
  intros shots chosen q Hshots Hchosen.
  assert (chosen = 0 \/ chosen = 1 \/ chosen = 2)%Z as Hcases by lia.
  clear Hchosen. subst q.
  destruct data as [st eq sh rnd].
  cbn [Flask.shots Flask.random_error Flask.error_qubit Flask.state] in *.
  destruct sh as [n |], rnd as [[|] |], eq as [e |];
    cbn [from_option id] in *; subst shots chosen;
    (destruct Hcases as [Hc | [Hc | Hc]]; try discriminate Hc; subst);
    (split; [intros Hst | intros [Hst | Hst]]; subst st);
    run_recipe;
    eexists; (split; [reflexivity | ]);
    cbn [Flask.circuit Flask.measurements Flask.info Flask.expected_state
         Flask.success_rate Flask.corrected Qiskit.data];
    repeat split;
    first [ apply rate_none
          | apply rate_all; lia
          | apply below_threshold, rate_none ].
Qed.

Lemma pipeline_decodes_before_measuring_witness :
  exists body,
    Flask.pipeline 0 {| Flask.state := Some "1"; Flask.error_qubit := Some 2%Z;
                        Flask.shots := Some 5%Z; Flask.random_error := None |}
    = Flask.Ok200 body /\
    Flask.measurements body = {[ "001" := 5%Z ]} /\
    (Flask.success_rate (Flask.info body) == 0)%Q /\
    Flask.corrected (Flask.info body) = false.
Proof.
  destruct (pipeline_decodes_before_measuring 0
              {| Flask.state := Some "1"; Flask.error_qubit := Some 2%Z;
                 Flask.shots := Some 5%Z; Flask.random_error := None |}
              ltac:(simpl; lia) ltac:(simpl; lia)) as [Hone _].
  destruct (Hone eq_refl) as (body & Hrun & _ & Hcounts & _ & Hrate & Hflag).
  exists body. repeat split; assumption.
Defined.

(** ** Qubit indices outside 0, 1, 2 *)

Section IndexChecks.

(** [introduce_bit_flip_error] checks the index itself, before it
  touches the circuit. *)
Lemma introduce_bit_flip_error_rejects (qc : QuantumCircuit) (i : Z) :
i <> 0%Z -> i <> 1%Z -> i <> 2%Z ->
ErrorSimulation.introduce_bit_flip_error qc i
= inl (ValueError "Qubit index must be 0, 1, or 2").
Proof.
intros H0 H1 H2. unfold ErrorSimulation.introduce_bit_flip_error.
cbn [existsb].
destruct (Z.eqb_spec i 0); [contradiction | ].
destruct (Z.eqb_spec i 1); [contradiction | ].
destruct (Z.eqb_spec i 2); [contradiction | ].
reflexivity.
Qed.

(** The routes check it too, and answer 400 before building anything. *)
Lemma pipeline_route_rejects (r : Z) (st : option string) (i : Z) (sh : option Z) :
i <> 0%Z -> i <> 1%Z -> i <> 2%Z ->
Flask.pipeline r {| Flask.state := st; Flask.error_qubit := Some i;
                    Flask.shots := sh; Flask.random_error := None |}
= Flask.Bad400 "Invalid qubit".
Proof.
intros H0 H1 H2. unfold Flask.pipeline.
cbn [Flask.random_error Flask.error_qubit from_option id existsb].
destruct (Z.eqb_spec i 0); [contradiction | ].
destruct (Z.eqb_spec i 1); [contradiction | ].
destruct (Z.eqb_spec i 2); [contradiction | ].
reflexivity.
Qed.

(** An index past the register is refused by the library when
  [introduce_error] appends the X gate, not by the method. *)
Lemma introduce_error_beyond_register (rnd : Pipeline.draws) (i : Z) :
Qle_bool (Pipeline.random_random rnd) 1 = true ->
(3 <= i)%Z ->
Pipeline.introduce_error rnd (new_circuit 3 3) (Some i) 1
= inl (CircuitError "Index out of range for the register size.").
Proof.
intros Hdraw Hi. unfold Pipeline.introduce_error, x, resolve_index.
rewrite Hdraw. cbn [negb num_qubits new_circuit].
destruct (Z.leb_spec 0 i); [ | lia].
destruct (Z.ltb_spec i (Z.of_nat 3)); [lia | ].
destruct (Z.leb_spec (- Z.of_nat 3) i); [ | lia].
destruct (Z.ltb_spec i 0); [lia | ].
reflexivity.
Qed.

End IndexChecks.

(** C8: [introduce_bit_flip_error] refuses the index -1 with its
    ValueError, but [BitFlipErrorCorrection.introduce_error] has no such
    check: given -1 it appends an X gate on qubit 2 and returns the
    circuit with -1 as the error qubit, so construction does not fail
    for that index outside 0, 1, 2. *)
Theorem introduce_error_accepts_negative_index :
  ErrorSimulation.introduce_bit_flip_error (new_circuit 3 3) (-1)
  = inl (ValueError "Qubit index must be 0, 1, or 2") /\
  Pipeline.introduce_error
    {| Pipeline.random_random := 0; Pipeline.random_randint_0_2 := 0 |}
    (new_circuit 3 3) (Some (-1)%Z) 1
  = inr ({| num_qubits := 3; num_clbits := 3;
            data := [XGate 2; Barrier (Some "Error@q")] |},
         Some (-1)%Z).
Proof.
  split; reflexivity.
Qed.

(** * Further properties *)

(** ** The three majority votes *)

Section MajorityVoteAgreement.

Lemma str_count_0_find (s : string) (c : ascii) :
  str_count s c = 0 -> str_find s c = None.
Proof.
  induction s as [| a s IH]; [reflexivity | ].
  simpl. destruct (Ascii.eqb a c); [discriminate | ].
  intros H. now rewrite IH.
Qed.

Lemma length_is_3 (s : string) :
  String.length s = 3 -> negb (String.length s =? 3)%nat = false.
Proof.
  intros ->. reflexivity.
Qed.

End MajorityVoteAgreement.

(** X1: on every 3-character string, whatever its characters,
    [detect_error] returns what [majority_vote] returns, in its own
    order of the three results, and raises when [majority_vote]
    raises. *)
Theorem detect_error_agrees_with_majority_vote (s : string) :
  String.length s = 3 ->
  detect_error s =
    match majority_vote s with
    | inr (majority, detected, position) => inr (detected, position, majority)
    | inl e => inl e
    end.
Proof.
  intros Hlen. unfold detect_error, majority_vote.
  rewrite (length_is_3 s Hlen).
  destruct ((str_count s "0" =? 3)%nat || (str_count s "1" =? 3)%nat);
    [reflexivity | ].
  cbn [negb]. unfold bind.
  destruct (str_index s _); reflexivity.
Qed.

Lemma detect_error_agrees_with_majority_vote_witness :
  detect_error "0a1" = inr (true, Some 0, "1"%char).
Proof.
  apply (detect_error_agrees_with_majority_vote "0a1"). reflexivity.
Defined.

(** X2: on every 3-character string [majority_vote_correction] reports
    the error position and the flag that [majority_vote] reports; its
    corrected string is the input with the majority bit written at that
    position, the input itself when there is none. *)
Theorem correction_agrees_with_majority_vote (s : string) :
  String.length s = 3 ->
  majority_vote_correction s =
    match majority_vote s with
    | inr (majority, detected, Some i) =>
        inr (str_set s i majority, Some i, detected)
    | inr (_, detected, None) => inr (s, None, detected)
    | inl e => inl e
    end.
Proof.
  intros Hlen. unfold majority_vote_correction, majority_vote.
  rewrite (length_is_3 s Hlen).
  destruct ((str_count s "0" =? 3)%nat || (str_count s "1" =? 3)%nat);
    [reflexivity | ].
  cbn [negb]. unfold bind.
  destruct (str_index s _); reflexivity.
Qed.

Lemma correction_agrees_with_majority_vote_witness :
  majority_vote_correction "110" = inr ("111", Some 2, true).
Proof.
  apply (correction_agrees_with_majority_vote "110"). reflexivity.
Defined.

(** X3: on a string whose length is not 3, [majority_vote_correction]
    raises ValueError('Expected 3-bit string'). *)
Theorem majority_vote_correction_wrong_length (s : string) :
  String.length s <> 3 ->
  majority_vote_correction s = inl (ValueError "Expected 3-bit string").
Proof.
  intros H. unfold majority_vote_correction. now rewrite (length_not_3 s H).
Qed.

Lemma majority_vote_correction_wrong_length_witness :
  majority_vote_correction "" = inl (ValueError "Expected 3-bit string") /\
  majority_vote_correction "0101" = inl (ValueError "Expected 3-bit string").
Proof.
  split.
  - apply (majority_vote_correction_wrong_length ""). simpl. lia.
  - apply (majority_vote_correction_wrong_length "0101"). simpl. lia.
Defined.

(** X4: one flipped bit is located and undone.  For the codeword of
    either logical bit and a flip at index 0, 1 or 2, [majority_vote]
    and [detect_error] return the logical bit with the flipped index,
    and [majority_vote_correction] returns the codeword. *)
Theorem single_flip_is_corrected (b : bool) (i : nat) :
  i < 3 ->
  let received := Bits.flip_at b i (Bits.codeword b) in
  majority_vote received = inr (Bits.bit_char b, true, Some i) /\
  detect_error received = inr (true, Some i, Bits.bit_char b) /\
  majority_vote_correction received = inr (Bits.codeword b, Some i, true).
Proof.
  intros Hi.
  destruct b; destruct i as [| [| [| i]]]; try lia;
    repeat split; reflexivity.
Qed.

Lemma single_flip_is_corrected_witness :
  majority_vote_correction "101" = inr ("111", Some 1, true).
Proof.
  apply (single_flip_is_corrected true 1). lia.
Defined.

(** X5: two flipped bits are decoded to the other codeword.  After
    flips at two different indices of a codeword,
    [majority_vote_correction] flips the remaining index too and
    returns the codeword of the opposite logical bit. *)
Theorem double_flip_is_miscorrected (b : bool) (i j : nat) :
  i < 3 -> j < 3 -> i <> j ->
  let received := Bits.flip_at b j (Bits.flip_at b i (Bits.codeword b)) in
  majority_vote_correction received
  = inr (Bits.codeword (negb b), Some (3 - i - j), true) /\
  majority_vote received = inr (Bits.bit_char (negb b), true, Some (3 - i - j)).
Proof.
  intros Hi Hj Hij.
  destruct b; destruct i as [| [| [| i]]]; try lia;
    destruct j as [| [| [| j]]]; try lia;
    split; reflexivity.
Qed.

Lemma double_flip_is_miscorrected_witness :
  majority_vote_correction "110" = inr ("111", Some 2, true).
Proof.
  apply (double_flip_is_miscorrected false 0 1); lia.
Defined.

(** X6: correcting twice changes nothing more.  On a 3-character binary
    string the corrected string of [majority_vote_correction] is
    returned unchanged, without position and without correction, when
    it is given to [majority_vote_correction] again. *)
Theorem majority_vote_correction_idempotent (s : string) :
  binary3 s = true ->
  exists corrected position applied,
    majority_vote_correction s = inr (corrected, position, applied) /\
    majority_vote_correction corrected = inr (corrected, None, false).
Proof.
  intros H. by_codeword H; do 3 eexists; split; reflexivity.
Qed.

Lemma majority_vote_correction_idempotent_witness :
  exists corrected position applied,
    majority_vote_correction "010" = inr (corrected, position, applied) /\
    majority_vote_correction corrected = inr (corrected, None, false).
Proof.
  apply (majority_vote_correction_idempotent "010"). reflexivity.
Defined.

(** X7: [detect_error] has no length check, and a run of equal bits
    that is not three long is not reported as error-free: on a string
    without '0' or without '1' whose counts of '0' and of '1' are both
    different from 3 (the empty string, '11', '0000') it raises
    ValueError('substring not found'). *)
Theorem detect_error_uniform_not_three (s : string) :
  str_count s "0" = 0 \/ str_count s "1" = 0 ->
  str_count s "0" <> 3 ->
  str_count s "1" <> 3 ->
  detect_error s = inl (ValueError "substring not found").
Proof.
  intros Hnone H0 H1. unfold detect_error.
  apply Nat.eqb_neq in H0. apply Nat.eqb_neq in H1.
  rewrite H0, H1. cbn [orb].
  destruct (str_count s "1" <? str_count s "0")%nat eqn:Hlt.
  - apply Nat.ltb_lt in Hlt.
    destruct Hnone as [Hz | Hz]; [lia | ].
    cbn. unfold str_index. now rewrite (str_count_0_find s "1" Hz).
  - apply Nat.ltb_ge in Hlt.
    assert (str_count s "0" = 0) as Hz by (destruct Hnone; lia).
    cbn. unfold str_index. now rewrite (str_count_0_find s "0" Hz).
Qed.

Lemma detect_error_uniform_not_three_witness :
  detect_error "0000" = inl (ValueError "substring not found") /\
  detect_error "" = inl (ValueError "substring not found").
Proof.
  split.
  - apply (detect_error_uniform_not_three "0000");
      [right; reflexivity | simpl; lia | simpl; lia].
  - apply (detect_error_uniform_not_three "");
      [left; reflexivity | simpl; lia | simpl; lia].
Defined.

(** ** An injected error, as the measurement shows it *)

Ltac eval_bits :=
  repeat match goal with
         | |- context [Bits.flip_at ?b ?i ?s] =>
             let v := eval vm_compute in (Bits.flip_at b i s) in
             change (Bits.flip_at b i s) with v
         | |- context [Bits.codeword ?b] =>
             let v := eval vm_compute in (Bits.codeword b) in
             change (Bits.codeword b) with v
         | |- context [Bits.bit_char ?b] =>
             let v := eval vm_compute in (Bits.bit_char b) in
             change (Bits.bit_char b) with v
         | |- context [Z.to_nat ?z] =>
             let v := eval vm_compute in (Z.to_nat z) in
             change (Z.to_nat z) with v
         end.

(** Evaluates the left-hand side of an equation on counts. *)
Ltac run_lhs :=
  lazymatch goal with
  | |- ?lhs = _ => eval_call lhs
  end;
  rewrite ?run_counts_pos by lia;
  eval_outcome; cbv beta iota; eval_bits.

(** X8: [create_circuit_with_error] on the logical bit [b].  Without an
    error every shot measures the codeword; with an error on qubit [e]
    (0, 1 or 2) every shot measures the codeword with the character at
    index [2 - e] flipped: the counts key shows qubit 2 first. *)
Theorem create_circuit_with_error_outcome (b : bool) (e shots : Z) :
  (0 <= e <= 2)%Z ->
  (0 < shots)%Z ->
  let initial_state := String (Bits.bit_char b) EmptyString in
  (let* qc := Simulation.create_circuit_with_error initial_state None in
   Simulation.simulate_circuit qc shots)
  = inr {[ Bits.codeword b := shots ]} /\
  (let* qc := Simulation.create_circuit_with_error initial_state (Some e) in
   Simulation.simulate_circuit qc shots)
  = inr {[ Bits.flip_at b (Z.to_nat (2 - e)) (Bits.codeword b) := shots ]}.
Proof.
  intros He Hshots.
  assert (e = 0 \/ e = 1 \/ e = 2)%Z as [-> | [-> | ->]] by lia;
    destruct b; cbv zeta; split; run_lhs; reflexivity.
Qed.

Lemma create_circuit_with_error_outcome_witness :
  (let* qc := Simulation.create_circuit_with_error "0" (Some 0%Z) in
   Simulation.simulate_circuit qc 9)
  = inr {[ Bits.flip_at false (Z.to_nat (2 - 0)) (Bits.codeword false) := 9%Z ]}.
Proof.
  apply (create_circuit_with_error_outcome false 0 9); lia.
Defined.

(** X9: the detection circuit of majority_vote_detection.py, from
    [create_encoding_circuit_with_registers] through
    [add_error_and_measure] and the simulation to [majority_vote].  An
    error on qubit [e] (0, 1 or 2) is measured on every shot as '000'
    with index [2 - e] flipped, and [majority_vote] reports majority
    '0' with error position [2 - e]; without an error every shot
    measures '000' and no error is reported. *)
Theorem detection_reports_reversed_position (e shots : Z) :
  (0 <= e <= 2)%Z ->
  (0 < shots)%Z ->
  let measured error_qubit :=
    let* qc := Detection.create_encoding_circuit_with_registers in
    let* qc := Detection.add_error_and_measure qc error_qubit in
    Detection.simulate_and_get_measurements qc shots in
  let key := Bits.flip_at false (Z.to_nat (2 - e)) "000" in
  measured (Some e) = inr {[ key := shots ]} /\
  majority_vote key = inr ("0"%char, true, Some (Z.to_nat (2 - e))) /\
  measured None = inr {[ "000" := shots ]} /\
  majority_vote "000" = inr ("0"%char, false, None).
Proof.
  intros He Hshots.
  assert (e = 0 \/ e = 1 \/ e = 2)%Z as [-> | [-> | ->]] by lia;
    cbv zeta; (split; [ | split; [ | split ]]);
    try reflexivity; run_lhs; reflexivity.
Qed.

Lemma detection_reports_reversed_position_witness :
  majority_vote (Bits.flip_at false (Z.to_nat (2 - 0)) "000")
  = inr ("0"%char, true, Some (Z.to_nat (2 - 0))).
Proof.
  apply (detection_reports_reversed_position 0 5); lia.
Defined.

(** X10: the uncorrected circuit of
    [create_error_correction_circuit_v2], decoded classically.  For the
    logical bit [b] and an error on qubit [e] (0, 1 or 2) every shot
    measures the codeword with index [2 - e] flipped, and
    [majority_vote_correction] turns that key back into the codeword,
    reporting position [2 - e]. *)
Theorem uncorrected_circuit_is_decoded (b : bool) (e shots : Z) :
  (0 <= e <= 2)%Z ->
  (0 < shots)%Z ->
  let initial_state := String (Bits.bit_char b) EmptyString in
  let key := Bits.flip_at b (Z.to_nat (2 - e)) (Bits.codeword b) in
  AutomaticCorrection.error_counts initial_state (Some e) shots
  = inr {[ key := shots ]} /\
  majority_vote_correction key
  = inr (Bits.codeword b, Some (Z.to_nat (2 - e)), true).
Proof.
  intros He Hshots.
  assert (e = 0 \/ e = 1 \/ e = 2)%Z as [-> | [-> | ->]] by lia;
    destruct b; cbv zeta; split; try reflexivity; run_lhs; reflexivity.
Qed.

Lemma uncorrected_circuit_is_decoded_witness :
  AutomaticCorrection.error_counts "1" (Some 2%Z) 5
  = inr {[ Bits.flip_at true (Z.to_nat (2 - 2)) (Bits.codeword true) := 5%Z ]}.
Proof.
  apply (uncorrected_circuit_is_decoded true 2 5); lia.
Defined.

(** ** Appending gates to any circuit *)

Section CircuitSteps.




Lemma resolve_index_small (n : nat) (e : Z) :
  (0 <= e < Z.of_nat n)%Z -> resolve_index n e = inr (Z.to_nat e).
Proof.
  intros H. unfold resolve_index.
  destruct (Z.leb_spec 0 e), (Z.ltb_spec e (Z.of_nat n));
    cbn [andb]; try reflexivity; lia.
Qed.

Lemma resolve_index_out_of_range (n : nat) (e : Z) :
  (Z.of_nat n <= e)%Z ->
  resolve_index n e
  = inl (CircuitError "Index out of range for the register size.").
Proof.
  intros H. unfold resolve_index.
  destruct (Z.leb_spec 0 e), (Z.ltb_spec e (Z.of_nat n));
    cbn [andb]; try lia.
  destruct (Z.leb_spec (- Z.of_nat n) e), (Z.ltb_spec e 0);
    cbn [andb]; try reflexivity; lia.
Qed.

End CircuitSteps.



(** X12: [introduce_bit_flip_error] on a circuit of at least three
    qubits returns a circuit exactly for the indices 0, 1 and 2, and
    the circuit it returns is the given one followed by a barrier, the
    X gate on that qubit and a barrier. *)
Theorem introduce_bit_flip_error_accepts (qc : QuantumCircuit) (i : Z) :
  3 <= num_qubits qc ->
  ((exists qc', ErrorSimulation.introduce_bit_flip_error qc i = inr qc')
   <-> (0 <= i <= 2)%Z) /\
  ((0 <= i <= 2)%Z ->
   ErrorSimulation.introduce_bit_flip_error qc i
   = inr {| num_qubits := num_qubits qc;
            num_clbits := num_clbits qc;
            data := data qc ++ [Barrier None; XGate (Z.to_nat i); Barrier None] |}).
Proof.
  intros Hn.
  assert ((0 <= i <= 2)%Z ->
          ErrorSimulation.introduce_bit_flip_error qc i
          = inr {| num_qubits := num_qubits qc;
                   num_clbits := num_clbits qc;
                   data := data qc
                           ++ [Barrier None; XGate (Z.to_nat i); Barrier None] |})
    as Hok.
  { intros Hi. unfold ErrorSimulation.introduce_bit_flip_error.
    assert (existsb (Z.eqb i) [0; 1; 2]%Z = true) as ->.
    { assert (i = 0 \/ i = 1 \/ i = 2)%Z as [-> | [-> | ->]] by lia;
        reflexivity. }
    cbn [negb]. unfold x, barrier. cbn [num_qubits append].
    rewrite resolve_index_small by lia.
    cbn [bind ret append num_qubits num_clbits data].
    unfold ret, append. cbn [num_qubits num_clbits data].
    rewrite <- !List.app_assoc. reflexivity. }
  split; [ | exact Hok].
  split.
  - intros [qc' Hrun].
    destruct (Z.eq_dec i 0%Z), (Z.eq_dec i 1%Z), (Z.eq_dec i 2%Z); try lia.
    rewrite introduce_bit_flip_error_rejects in Hrun by assumption.
    discriminate Hrun.
  - intros Hi. eexists. apply Hok, Hi.
Qed.

Lemma introduce_bit_flip_error_accepts_witness :
  (exists qc', ErrorSimulation.introduce_bit_flip_error (new_circuit 3 3) 2
               = inr qc') <-> (0 <= 2 <= 2)%Z.
Proof.
  apply (introduce_bit_flip_error_accepts (new_circuit 3 3) 2). simpl. lia.
Defined.

(** X13: the guard of [introduce_bit_flip_error] is fixed to three
    qubits.  On a circuit with fewer qubits an index that passes the
    guard but is not below the number of qubits is refused by the
    library only, with its CircuitError. *)
Theorem introduce_bit_flip_error_on_small_circuit (qc : QuantumCircuit) (i : Z) :
  (0 <= i <= 2)%Z ->
  (Z.of_nat (num_qubits qc) <= i)%Z ->
  ErrorSimulation.introduce_bit_flip_error qc i
  = inl (CircuitError "Index out of range for the register size.").
Proof.
  intros Hi Hsmall. unfold ErrorSimulation.introduce_bit_flip_error.
  assert (existsb (Z.eqb i) [0; 1; 2]%Z = true) as ->.
  { assert (i = 0 \/ i = 1 \/ i = 2)%Z as [-> | [-> | ->]] by lia;
      reflexivity. }
  cbn [negb]. unfold x, barrier. cbn [num_qubits append].
  now rewrite resolve_index_out_of_range.
Qed.

Lemma introduce_bit_flip_error_on_small_circuit_witness :
  ErrorSimulation.introduce_bit_flip_error (new_circuit 2 2) 2
  = inl (CircuitError "Index out of range for the register size.").
Proof.
  apply (introduce_bit_flip_error_on_small_circuit (new_circuit 2 2) 2);
    simpl; lia.
Defined.

(** ** The steps of the class, put together *)

(** X14: the syndrome after the steps of the class.  On a fresh
    circuit prepared in the logical bit [b], [encode], then
    [introduce_error] on qubit [e] (0, 1 or 2, with a draw that lets the
    error happen), then [measure_syndrome] measure the codeword with
    index [2 - e] flipped, and [detect_error] on that string returns
    the logical bit with position [2 - e]. *)
Theorem class_steps_syndrome (rnd : Pipeline.draws) (b : bool) (e : Z) :
  Qle_bool (Pipeline.random_random rnd) 1 = true ->
  (0 <= e <= 2)%Z ->
  let syndrome :=
    let qc := new_circuit 3 3 in
    let* qc := (if b then x qc 0 else ret qc) in
    let* qc := Steps.encode qc in
    let* r := Pipeline.introduce_error rnd qc (Some e) 1 in
    let* qc := Steps.measure_syndrome r.1 in
    ret (outcome qc) in
  let key := Bits.flip_at b (Z.to_nat (2 - e)) (Bits.codeword b) in
  syndrome = inr key /\
  detect_error key = inr (true, Some (Z.to_nat (2 - e)), Bits.bit_char b).
Proof.
  intros Hdraw He. destruct rnd as [u r].
  cbn [Pipeline.random_random] in Hdraw.
  assert (e = 0 \/ e = 1 \/ e = 2)%Z as [-> | [-> | ->]] by lia;
    destruct b; cbv zeta; (split; [ | reflexivity]);
    unfold Pipeline.introduce_error; cbn [Pipeline.random_random];
    rewrite Hdraw;
    (lazymatch goal with |- ?lhs = _ => eval_call lhs end);
    reflexivity.
Qed.

Lemma class_steps_syndrome_witness :
  detect_error (Bits.flip_at true (Z.to_nat (2 - 0)) (Bits.codeword true))
  = inr (true, Some (Z.to_nat (2 - 0)), "1"%char).
Proof.
  apply (class_steps_syndrome
           {| Pipeline.random_random := 0; Pipeline.random_randint_0_2 := 0 |}
           true 0); [reflexivity | lia].
Defined.

(** X15: the position [detect_error] reports is an index into the
    measured string, not a qubit number.  When, after an error on qubit
    [e], [correct_error] is given the position [2 - e] that
    [detect_error] reports for the syndrome, the measurement shows the
    codeword only for [e = 1]; for [e = 0] and [e = 2] it shows the
    codeword with the two outer characters flipped. *)
Theorem correct_error_at_reported_position (rnd : Pipeline.draws) (b : bool) (e : Z) :
  Qle_bool (Pipeline.random_random rnd) 1 = true ->
  (0 <= e <= 2)%Z ->
  let reported := (2 - e)%Z in
  let measured :=
    let qc := new_circuit 3 3 in
    let* qc := (if b then x qc 0 else ret qc) in
    let* qc := Steps.encode qc in
    let* r := Pipeline.introduce_error rnd qc (Some e) 1 in
    let* qc := Steps.correct_error r.1 (Some reported) in
    let* qc := Steps.measure_syndrome qc in
    ret (outcome qc) in
  measured
  = inr (if (e =? 1)%Z then Bits.codeword b
         else Bits.flip_at b 0 (Bits.flip_at b 2 (Bits.codeword b))).
Proof.
  intros Hdraw He. destruct rnd as [u r].
  cbn [Pipeline.random_random] in Hdraw.
  assert (e = 0 \/ e = 1 \/ e = 2)%Z as [-> | [-> | ->]] by lia;
    destruct b; cbv zeta;
    unfold Pipeline.introduce_error; cbn [Pipeline.random_random];
    rewrite Hdraw;
    (lazymatch goal with |- ?lhs = _ => eval_call lhs end);
    reflexivity.
Qed.

Lemma correct_error_at_reported_position_witness :
  (let qc := new_circuit 3 3 in
   let* qc := ret qc in
   let* qc := Steps.encode qc in
   let* r := Pipeline.introduce_error
               {| Pipeline.random_random := 0; Pipeline.random_randint_0_2 := 0 |}
               qc (Some 0%Z) 1 in
   let* qc := Steps.correct_error r.1 (Some (2 - 0)%Z) in
   let* qc := Steps.measure_syndrome qc in
   ret (outcome qc))
  = inr "101".
Proof.
  apply (correct_error_at_reported_position
           {| Pipeline.random_random := 0; Pipeline.random_randint_0_2 := 0 |}
           false 0); [reflexivity | lia].
Defined.

(** ** The routes: errors, refused indices, other states *)

Ltac eval_route_call :=
  repeat match goal with
         | |- context [Routes.introduce_error ?d] =>
             eval_call (Routes.introduce_error d)
         | |- context [Routes.introduce_random_error ?r ?d] =>
             eval_call (Routes.introduce_random_error r d)
         end;
  rewrite ?run_counts_pos by lia;
  eval_outcome; cbv beta iota.

(** X16: POST /error and POST /error/random.  For the state '0' or '1'
    and an error qubit 0, 1 or 2 (given to /error, or left out and then
    1; drawn for /error/random) the route answers 200, names that
    qubit, and all its 1000 shots measure the codeword with index
    [2 - qubit] flipped. *)
Theorem error_routes_outcome (b : bool) (given : option Z) (drawn : Z) :
  let e := default 1%Z given in
  let data :=
    {| Flask.state := Some (String (Bits.bit_char b) EmptyString);
       Flask.error_qubit := given;
       Flask.shots := None; Flask.random_error := None |} in
  (0 <= e <= 2)%Z ->
  (0 <= drawn <= 2)%Z ->
  (exists body,
      Routes.introduce_error data = Flask.Ok200 body /\
      Routes.err_error_qubit body = e /\
      Routes.err_measurements body
      = {[ Bits.flip_at b (Z.to_nat (2 - e)) (Bits.codeword b) := 1000%Z ]}) /\
  (exists body,
      Routes.introduce_random_error drawn data = Flask.Ok200 body /\
      Routes.rnd_error_qubit body = drawn /\
      Routes.rnd_randomly_selected body = true /\
      Routes.rnd_measurements body
      = {[ Bits.flip_at b (Z.to_nat (2 - drawn)) (Bits.codeword b) := 1000%Z ]}).
Proof.
  intros e data He Hdrawn. subst data.
  assert (e = 0 \/ e = 1 \/ e = 2)%Z as He' by lia.
  assert (drawn = 0 \/ drawn = 1 \/ drawn = 2)%Z as [-> | [-> | ->]] by lia;
    destruct given as [g |]; cbn [from_option id] in e; subst e;
    (destruct He' as [He' | [He' | He']]; try discriminate He'; subst);
    destruct b; split; eval_route_call; eval_bits;
    eexists; repeat split.
Qed.

Lemma error_routes_outcome_witness :
  exists body,
    Routes.introduce_error
      {| Flask.state := Some "1"; Flask.error_qubit := Some 0%Z;
         Flask.shots := None; Flask.random_error := None |}
    = Flask.Ok200 body /\
    Routes.err_error_qubit body = 0%Z /\
    Routes.err_measurements body = {[ "110" := 1000%Z ]}.
Proof.
  apply (error_routes_outcome true (Some 0%Z) 1); simpl; lia.
Defined.

(** X17: the routes with an index check.  When [random_error] is not
    set, POST /error, POST /correct and POST /pipeline answer a request
    whose error qubit is not 0, 1 or 2 with status 400 and the message
    'Invalid qubit', whatever the state and the shot count. *)
Theorem routes_refuse_invalid_qubit (r : Z) (st : option string) (i : Z) (sh : option Z) :
  i <> 0%Z -> i <> 1%Z -> i <> 2%Z ->
  let data :=
    {| Flask.state := st; Flask.error_qubit := Some i;
       Flask.shots := sh; Flask.random_error := None |} in
  Routes.introduce_error data = Flask.Bad400 "Invalid qubit" /\
  Flask.correct data = Flask.Bad400 "Invalid qubit" /\
  Flask.pipeline r data = Flask.Bad400 "Invalid qubit".
Proof.
  intros H0 H1 H2 data. subst data.
  unfold Routes.introduce_error, Flask.correct, Flask.pipeline.
  cbn [Flask.random_error Flask.error_qubit from_option id existsb].
  destruct (Z.eqb_spec i 0); [contradiction | ].
  destruct (Z.eqb_spec i 1); [contradiction | ].
  destruct (Z.eqb_spec i 2); [contradiction | ].
  repeat split.
Qed.

Lemma routes_refuse_invalid_qubit_witness :
  Flask.correct
    {| Flask.state := Some "0"; Flask.error_qubit := Some 3%Z;
       Flask.shots := None; Flask.random_error := None |}
  = Flask.Bad400 "Invalid qubit".
Proof.
  apply (routes_refuse_invalid_qubit 0 (Some "0") 3 None); lia.
Defined.

Ltac eval_catch :=
  repeat match goal with
         | |- context [@Flask.catch ?A ?t] => eval_call (@Flask.catch A t)
         end;
  rewrite ?run_counts_pos by lia;
  eval_outcome; cbv beta iota;
  rewrite ?counts_get_singleton;
  eval_key_test; cbv beta iota;
  rewrite ?truediv_nonzero by lia;
  cbv beta iota.

(** X18: with [random_error] set, POST /pipeline never answers
    'Invalid qubit'.  Whatever state and error qubit the request
    carries (an index outside 0, 1, 2 included), with a positive shot
    count the route answers 200, reports the drawn qubit as the error
    qubit and marks it as randomly selected. *)
Theorem pipeline_random_error_always_runs
    (drawn : Z) (st : option string) (given : option Z) (sh : option Z) :
  (0 <= drawn <= 2)%Z ->
  (0 < default 1000 sh)%Z ->
  exists body,
    Flask.pipeline drawn
      {| Flask.state := st; Flask.error_qubit := given;
         Flask.shots := sh; Flask.random_error := Some true |}
    = Flask.Ok200 body /\
    Flask.chosen_error_qubit (Flask.info body) = drawn /\
    Flask.randomly_selected (Flask.info body) = true /\
    Flask.used_shots body = default 1000%Z sh.
Proof.
  intros Hdrawn Hshots.
  unfold Flask.pipeline.
  cbn [Flask.shots Flask.random_error Flask.error_qubit Flask.state
       from_option id].
  generalize dependent (default 1000%Z sh). intros shots Hshots.
  generalize (default 1%Z given). intros e.
  generalize (default "0" st). intros initial_state.
  assert (drawn = 0 \/ drawn = 1 \/ drawn = 2)%Z as [-> | [-> | ->]] by lia;
    destruct (String.eqb initial_state "1"), (String.eqb initial_state "0");
    eval_catch; eexists; repeat split.
Qed.

Lemma pipeline_random_error_always_runs_witness :
  exists body,
    Flask.pipeline 2
      {| Flask.state := Some "+"; Flask.error_qubit := Some 7%Z;
         Flask.shots := Some 10%Z; Flask.random_error := Some true |}
    = Flask.Ok200 body /\
    Flask.chosen_error_qubit (Flask.info body) = 2%Z /\
    Flask.randomly_selected (Flask.info body) = true /\
    Flask.used_shots body = 10%Z.
Proof.
  apply (pipeline_random_error_always_runs 2 (Some "+") (Some 7%Z) (Some 10%Z));
    simpl; lia.
Defined.

(** X19: a state other than '0' and '1' (such as '+').  The routes
    prepare nothing for it but expect '111': POST /encode names '111'
    as the encoded state while all shots measure '000'; POST /correct
    and POST /pipeline (error qubit 0, 1 or 2, positive shot count)
    measure '000' on all shots and report a success rate of 0, and
    /pipeline reports [corrected] false. *)
Theorem routes_on_other_state (st : string) (e shots r : Z) :
  st <> "0" -> st <> "1" ->
  (0 <= e <= 2)%Z ->
  (0 < shots)%Z ->
  (exists body,
      Flask.encode {| Flask.state := Some st; Flask.error_qubit := None;
                      Flask.shots := None; Flask.random_error := None |}
      = Flask.Ok200 body /\
      Flask.enc_encoded_state body = "111" /\
      Flask.enc_measurements body = {[ "000" := 1000%Z ]}) /\
  (exists body,
      Flask.correct {| Flask.state := Some st; Flask.error_qubit := Some e;
                       Flask.shots := None; Flask.random_error := None |}
      = Flask.Ok200 body /\
      Flask.cor_expected_state body = "111" /\
      Flask.cor_measurements body = {[ "000" := 1000%Z ]} /\
      (Flask.cor_success_rate body == 0)%Q) /\
  (exists body,
      Flask.pipeline r {| Flask.state := Some st; Flask.error_qubit := Some e;
                          Flask.shots := Some shots;
                          Flask.random_error := None |}
      = Flask.Ok200 body /\
      Flask.expected_state (Flask.info body) = "111" /\
      Flask.measurements body = {[ "000" := shots ]} /\
      (Flask.success_rate (Flask.info body) == 0)%Q /\
      Flask.corrected (Flask.info body) = false).
Proof.
  intros H0 H1 He Hshots.
  apply String.eqb_neq in H0. apply String.eqb_neq in H1.
  unfold Flask.encode, Flask.correct, Flask.pipeline.
  cbn [Flask.shots Flask.random_error Flask.error_qubit Flask.state
       from_option id].
  rewrite H0, H1.
  assert (e = 0 \/ e = 1 \/ e = 2)%Z as [-> | [-> | ->]] by lia;
    (split; [ | split]); eval_catch; eexists;
    (split; [reflexivity | ]);
    cbn [Flask.enc_encoded_state Flask.enc_measurements
         Flask.cor_expected_state Flask.cor_measurements
         Flask.cor_success_rate Flask.expected_state Flask.info
         Flask.measurements Flask.success_rate Flask.corrected];
    repeat split;
    first [ apply rate_none | apply below_threshold, rate_none ].
Qed.

Lemma routes_on_other_state_witness :
  exists body,
    Flask.correct {| Flask.state := Some "+"; Flask.error_qubit := Some 1%Z;
                     Flask.shots := None; Flask.random_error := None |}
    = Flask.Ok200 body /\
    Flask.cor_expected_state body = "111" /\
    Flask.cor_measurements body = {[ "000" := 1000%Z ]} /\
    (Flask.cor_success_rate body == 0)%Q.
Proof.
  apply (routes_on_other_state "+" 1 5 0); try lia; discriminate.
Defined.

(** ** The upload filter *)

Section UploadFilter.

Lemma split_last_none (s : string) (c : ascii) :
  str_find s c = None -> Routes.split_last s c = None.
Proof.
  induction s as [| a s IH]; [reflexivity | ].
  simpl. destruct (Ascii.eqb a c); [discriminate | ].
  destruct (str_find s c); [discriminate | ].
  intros _. now rewrite IH.
Qed.

Lemma split_last_some (s : string) (c : ascii) (i : nat) :
  str_find s c = Some i -> exists h t, Routes.split_last s c = Some (h, t).
Proof.
  revert i. induction s as [| a s IH]; [discriminate | ].
  intros i. simpl.
  destruct (Routes.split_last s c) as [[h t] |] eqn:Hs; [eauto | ].
  destruct (Ascii.eqb a c); [eauto | ].
  destruct (str_find s c) as [j |] eqn:Hf; [ | discriminate].
  destruct (IH j eq_refl) as (h & t & Hht). discriminate Hht.
Qed.

Lemma split_last_append (base ext : string) (c : ascii) :
  str_find ext c = None ->
  Routes.split_last (String.append base (String c ext)) c = Some (base, ext).
Proof.
  intros Hext. induction base as [| a base IH].
  - simpl. rewrite (split_last_none ext c Hext).
    now rewrite Ascii.eqb_refl.
  - simpl. now rewrite IH.
Qed.

Lemma str_contains_append (base ext : string) (c : ascii) :
  Routes.str_contains (String.append base (String c ext)) c = true.
Proof.
  unfold Routes.str_contains. induction base as [| a base IH].
  - simpl. now rewrite Ascii.eqb_refl.
  - simpl. destruct (Ascii.eqb a c); [reflexivity | ].
    destruct (str_find (String.append base (String c ext)) c);
      [reflexivity | discriminate IH].
Qed.

End UploadFilter.

(** X20: [allowed_file] never raises: the index 1 into the split name
    is only taken when the name has a dot, and then the split has two
    parts.  A name without a dot is refused. *)
Theorem allowed_file_total (filename : string) :
  (exists allowed, Routes.allowed_file filename = inr allowed) /\
  (Routes.str_contains filename "." = false ->
   Routes.allowed_file filename = inr false).
Proof.
  unfold Routes.allowed_file, Routes.str_contains, Routes.str_rsplit1.
  destruct (str_find filename ".") as [i |] eqn:Hfind.
  - destruct (split_last_some filename "." i Hfind) as (h & t & ->).
    split; [eexists; reflexivity | discriminate].
  - split; [eexists; reflexivity | reflexivity].
Qed.

Lemma allowed_file_total_witness :
  Routes.allowed_file "README" = inr false.
Proof.
  apply (allowed_file_total "README"). reflexivity.
Defined.

(** X21: [allowed_file] decides on the text after the last dot alone,
    ignoring case.  For a name [base.ext] whose [ext] has no dot the
    answer is whether the lower-cased [ext] is one of the allowed
    extensions, whatever [base] is: 'photo.JPG' and '.txt' are allowed,
    'archive.tar.gz' and 'notes.' are not. *)
Theorem allowed_file_by_last_extension (base ext : string) :
  Routes.str_contains ext "." = false ->
  Routes.allowed_file (String.append base (String "." ext))
  = inr (existsb (String.eqb (Routes.str_lower ext)) Routes.ALLOWED_EXTENSIONS).
Proof.
  intros Hext. unfold Routes.allowed_file, Routes.str_rsplit1.
  rewrite str_contains_append.
  rewrite split_last_append; [reflexivity | ].
  unfold Routes.str_contains in Hext.
  destruct (str_find ext "."); [discriminate Hext | reflexivity].
Qed.

Lemma allowed_file_by_last_extension_witness :
  Routes.allowed_file "photo.JPG" = inr true /\
  Routes.allowed_file ".txt" = inr true /\
  Routes.allowed_file "archive.tar.gz" = inr false /\
  Routes.allowed_file "notes." = inr false.
Proof.
  split; [ | split; [ | split]].
  - apply (allowed_file_by_last_extension "photo" "JPG"). reflexivity.
  - apply (allowed_file_by_last_extension "" "txt"). reflexivity.
  - apply (allowed_file_by_last_extension "archive.tar" "gz"). reflexivity.
  - apply (allowed_file_by_last_extension "notes" ""). reflexivity.
Defined.
